(** * The dialog hook of [packages/dialog/src/Dialog.hook.ts]

    A shallow embedding of [useDialog] and [useAriaHidden]: the event
    handlers of the overlay ([onMouseDown], [onKeyDown], [onOverlayClick]),
    the two prop getters and the effect that makes the background inert,
    with the properties the dialog's behaviour rests on. *)

From Stdlib Require Import ZArith.
From stdpp Require Import base option strings list gmap.

Local Open Scope string_scope.

(** ** DOM references

    DOM nodes and React ref objects are compared by identity ([===],
    [!==]) and never inspected, so each is its identity. *)

Definition Node := nat.
Definition EventTarget := Node.
Definition RefObject := nat.

(** [React.MouseEvent] and [React.KeyboardEvent], reduced to the fields
    the hook reads.  [event.stopPropagation()] is an effect of the
    handler, see [stopPropagation]. *)
Record MouseEvent := { target : EventTarget }.
Record KeyboardEvent := { key : string; key_target : EventTarget }.

(** ** What a handler does

    The callbacks of [DialogHookProps] are opaque functions; an invocation
    is recorded under the name of the prop it was read from. *)

Inductive CallbackProp := OnClose | OnOverlayClickProp | OnEsc.

Inductive Effect :=
  | StopPropagation
  | Called (p : CallbackProp).

Global Instance CallbackProp_eq_dec : EqDecision CallbackProp.
Proof. solve_decision. Defined.
Global Instance Effect_eq_dec : EqDecision Effect.
Proof. solve_decision. Defined.

Inductive JsError := TypeError.

Inductive Outcome (A : Type) :=
  | Returned (a : A)
  | Threw (e : JsError).
Arguments Returned {A} a.
Arguments Threw {A} e.

Section Dialog.

(** [World] is everything outside the hook that a callback may change;
    [Manager] is the state of the module-level [manager] of
    [./Dialog.manager], whose [isTopDialog] method is taken as given. *)
Context {World Manager : Type}.
Variable isTopDialog : Manager → RefObject → bool.

(** A callback of type [() => void].  It takes no argument, so it reaches
    neither the event nor the hook's refs; it is assumed to return. *)
Definition Callback := World → World.

(** The mutable state a handler can reach: [mouseDownTarget.current], the
    [manager] singleton and the world of the callbacks. *)
Record Store := {
  mouseDownTarget : option EventTarget;
  manager : Manager;
  world : World;
}.

(** The result of running a piece of handler code. *)
Record Run (A : Type) := {
  outcome : Outcome A;
  store : Store;
  emitted : list Effect;
}.
Arguments outcome {A} r.
Arguments store {A} r.
Arguments emitted {A} r.

Definition Js (A : Type) : Type := Store → Run A.

Definition js_ret {A} (a : A) : Js A :=
  λ s, {| outcome := Returned a; store := s; emitted := [] |}.

Definition js_bind {A B} (m : Js A) (k : A → Js B) : Js B :=
  λ s,
    let r := m s in
    match outcome r with
    | Returned a =>
        let r' := k a (store r) in
        {| outcome := outcome r'; store := store r';
           emitted := emitted r ++ emitted r' |}
    | Threw e =>
        {| outcome := Threw e; store := store r; emitted := emitted r |}
    end.

Notation "m1 ;;; m2" := (js_bind m1 (λ _, m2))
  (at level 100, m2 at level 200, right associativity).
Notation "x ←← m1 ;;; m2" := (js_bind m1 (λ x, m2))
  (at level 100, m1 at next level, m2 at level 200, right associativity).

Definition emit (e : Effect) : Js unit :=
  λ s, {| outcome := Returned tt; store := s; emitted := [e] |}.

(** [event.stopPropagation()] *)
Definition stopPropagation : Js unit := emit StopPropagation.

(** [f()]: calling [undefined] raises a [TypeError]. *)
Definition call (p : CallbackProp) (f : option Callback) : Js unit :=
  λ s,
    match f with
    | Some g =>
        {| outcome := Returned tt;
           store := {| mouseDownTarget := mouseDownTarget s;
                       manager := manager s;
                       world := g (world s) |};
           emitted := [Called p] |}
    | None => {| outcome := Threw TypeError; store := s; emitted := [] |}
    end.

(** [f?.()]: the call is skipped when [f] is [undefined]. *)
Definition call_opt (p : CallbackProp) (f : option Callback) : Js unit :=
  match f with
  | Some _ => call p f
  | None => js_ret tt
  end.

Definition read_mouseDownTarget : Js (option EventTarget) :=
  λ s, {| outcome := Returned (mouseDownTarget s); store := s; emitted := [] |}.

Definition write_mouseDownTarget (t : option EventTarget) : Js unit :=
  λ s,
    {| outcome := Returned tt;
       store := {| mouseDownTarget := t; manager := manager s;
                   world := world s |};
       emitted := [] |}.

Definition read_manager : Js Manager :=
  λ s, {| outcome := Returned (manager s); store := s; emitted := [] |}.

(** ** [DialogHookProps] *)

Record DialogHookProps := {
  isOpen : bool;
  id : option string;
  onClose : option Callback;
  shouldBlockScroll : option bool;
  shouldCloseOnOverlayClick : option bool;
  shouldCloseOnEsc : option bool;
  onOverlayClickProp : option Callback;
  onEsc : option Callback;
  useInert : option bool;
}.

(** A destructuring default [x = true]: used when the prop is
    [undefined]. *)
Definition or_true (b : option bool) : bool := default true b.

(** ** The handlers of the overlay

    Each handler is wrapped in [React.useCallback] with every prop it
    reads among its dependencies, so the handler in use is always the one
    built from the current props. *)

Section Handlers.

Variable props : DialogHookProps.
Variable dialogRef : RefObject.

Definition onMouseDown (event : MouseEvent) : Js unit :=
  write_mouseDownTarget (Some (target event)).

Definition onKeyDown (event : KeyboardEvent) : Js unit :=
  if bool_decide (key event = "Escape") then
    stopPropagation;;;
    (if or_true (shouldCloseOnEsc props)
     then call_opt OnClose (onClose props)
     else js_ret tt);;;
    call_opt OnEsc (onEsc props)
  else js_ret tt.

Definition onOverlayClick (event : MouseEvent) : Js unit :=
  stopPropagation;;;
  down ←← read_mouseDownTarget;;;
  if bool_decide (down ≠ Some (target event)) then js_ret tt
  else
    m ←← read_manager;;;
    if isTopDialog m dialogRef then
      (if or_true (shouldCloseOnOverlayClick props)
       then call_opt OnClose (onClose props)
       else js_ret tt);;;
      call_opt OnOverlayClickProp (onOverlayClickProp props)
    else js_ret tt.

End Handlers.

(** ** JavaScript values and [Dict]

    The prop getters take and return a [Dict], an object with string keys
    and values of any type.  Numbers are the integers ([tabIndex] is the
    only one the hook writes). *)

Inductive Value :=
  | VUndefined
  | VNull
  | VBool (b : bool)
  | VNum (n : Z)
  | VStr (s : string)
  | VRef (r : RefObject)
  | VMouseHandler (h : MouseEvent → Js unit)
  | VKeyHandler (h : KeyboardEvent → Js unit)
  | VOpaque (tag : nat).

Local Abbreviation Dict := (gmap string Value).

(** Reading a property: [undefined] when the key is absent. *)
Definition get (d : Dict) (k : string) : Value := default VUndefined (d !! k).

(** JavaScript truthiness, and [a || b]. *)
Definition truthy (v : Value) : bool :=
  match v with
  | VUndefined | VNull => false
  | VBool b => b
  | VNum n => negb (n =? 0)%Z
  | VStr s => negb (String.eqb s "")
  | VRef _ | VMouseHandler _ | VKeyHandler _ | VOpaque _ => true
  end.

Definition js_or (a b : Value) : Value := if truthy a then a else b.

Definition mouse_handler_of (v : Value) : option (MouseEvent → Js unit) :=
  match v with VMouseHandler h => Some h | _ => None end.

Definition key_handler_of (v : Value) : option (KeyboardEvent → Js unit) :=
  match v with VKeyHandler h => Some h | _ => None end.

(** [callAllHandlers] and [mergeRefs] of [@chakra-ui/utils] and [useIds] of
    [@chakra-ui/hooks] are not part of the sources.  The hook hands its
    handlers to the first and passes the results of all three on, so they
    are parameters. *)
Variable callAllHandlers :
  ∀ E : Type, list (option (E → Js unit)) → E → Js unit.
Variable useIds : option string → string → string → string →
                  string * string * string.
Variable mergeRefs : Value → Value → Value.

(** ** The state React keeps for one dialog between renders *)

Record DialogInstance := {
  dialogRef : RefObject;
  overlayRef : RefObject;
  headerMounted : bool;
  bodyMounted : bool;
}.

(** [React.useRef(null)] and [React.useState(false)] on the first
    render. *)
Definition mount (dialog overlay : RefObject) : DialogInstance :=
  {| dialogRef := dialog; overlayRef := overlay;
     headerMounted := false; bodyMounted := false |}.

Definition setHeaderMounted (b : bool) (i : DialogInstance) : DialogInstance :=
  {| dialogRef := dialogRef i; overlayRef := overlayRef i;
     headerMounted := b; bodyMounted := bodyMounted i |}.

Definition setBodyMounted (b : bool) (i : DialogInstance) : DialogInstance :=
  {| dialogRef := dialogRef i; overlayRef := overlayRef i;
     headerMounted := headerMounted i; bodyMounted := b |}.

(** ** [useDialog] *)

(** The hooks [useDialog] calls while rendering, each with the ref and
    the flag it is passed. *)
Record HookCalls := {
  call_useLockBodyScroll : RefObject * bool;
  call_useAriaHidden : RefObject * bool;
  call_useDialogManager : RefObject * bool;
}.

Record DialogHookReturn := {
  ret_isOpen : bool;
  ret_onClose : option Callback;
  ret_headerId : string;
  ret_bodyId : string;
  ret_setBodyMounted : bool → DialogInstance → DialogInstance;
  ret_setHeaderMounted : bool → DialogInstance → DialogInstance;
  ret_getDialogContentProps : option Dict → Dict;
  ret_getDialogOverlayProps : option Dict → Dict;
}.

Section Render.

Variable inst : DialogInstance.
Variable props : DialogHookProps.

Definition ids : string * string * string :=
  useIds (id props) "chakra-dialog" "chakra-dialog--header"
         "chakra-dialog--body".
Definition dialogId : string := ids.1.1.
Definition headerId : string := ids.1.2.
Definition bodyId : string := ids.2.

Definition hook_calls : HookCalls :=
  {| call_useLockBodyScroll :=
       (dialogRef inst, isOpen props && or_true (shouldBlockScroll props));
     call_useAriaHidden :=
       (dialogRef inst, isOpen props && or_true (useInert props));
     call_useDialogManager := (dialogRef inst, isOpen props) |}.

(** [props: Dict = {}], then [{...props, ref: ..., id: ..., ...}]: the
    keys written after the spread replace the caller's. *)
Definition getDialogContentProps (arg : option Dict) : Dict :=
  let props' : Dict := default ∅ arg in
  <["onClick" :=
      VMouseHandler
        (callAllHandlers MouseEvent
           [mouse_handler_of (get props' "onClick");
            Some (λ event : MouseEvent, stopPropagation)])]>
  (<["aria-describedby" :=
      if bodyMounted inst then VStr bodyId else VUndefined]>
  (<["aria-labelledby" :=
      if headerMounted inst then VStr headerId else VUndefined]>
  (<["aria-modal" := VBool true]>
  (<["tabIndex" := VNum (-1)]>
  (<["role" := js_or (get props' "role") (VStr "dialog")]>
  (<["id" := VStr dialogId]>
  (<["ref" := mergeRefs (get props' "ref") (VRef (dialogRef inst))]>
   props'))))))).

Definition getDialogOverlayProps (arg : option Dict) : Dict :=
  let props' : Dict := default ∅ arg in
  <["onMouseDown" :=
      VMouseHandler
        (callAllHandlers MouseEvent
           [mouse_handler_of (get props' "onMouseDown"); Some onMouseDown])]>
  (<["onKeyDown" :=
      VKeyHandler
        (callAllHandlers KeyboardEvent
           [key_handler_of (get props' "onKeyDown"); Some (onKeyDown props)])]>
  (<["onClick" :=
      VMouseHandler
        (callAllHandlers MouseEvent
           [mouse_handler_of (get props' "onClick");
            Some (onOverlayClick props (dialogRef inst))])]>
  (<["ref" := mergeRefs (get props' "ref") (VRef (overlayRef inst))]>
   props'))).

Definition useDialog : HookCalls * DialogHookReturn :=
  (hook_calls,
   {| ret_isOpen := isOpen props;
      ret_onClose := onClose props;
      ret_headerId := headerId;
      ret_bodyId := bodyId;
      ret_setBodyMounted := setBodyMounted;
      ret_setHeaderMounted := setHeaderMounted;
      ret_getDialogContentProps := getDialogContentProps;
      ret_getDialogOverlayProps := getDialogOverlayProps |}).

End Render.

(** ** Events reaching the overlay over time *)

Inductive OverlayEvent :=
  | MouseDown (event : MouseEvent)
  | KeyDown (event : KeyboardEvent)
  | Click (event : MouseEvent).

Definition deliver (props : DialogHookProps) (dialog : RefObject)
    (e : OverlayEvent) : Js unit :=
  match e with
  | MouseDown event => onMouseDown event
  | KeyDown event => onKeyDown props event
  | Click event => onOverlayClick props dialog event
  end.

Fixpoint deliver_all (props : DialogHookProps) (dialog : RefObject)
    (es : list OverlayEvent) : Js unit :=
  match es with
  | [] => js_ret tt
  | e :: rest => deliver props dialog e;;; deliver_all props dialog rest
  end.

(** The target of the most recent mouse-down of a history, starting from
    what the ref held before it. *)
Fixpoint last_mouse_down (before : option EventTarget)
    (es : list OverlayEvent) : option EventTarget :=
  match es with
  | [] => before
  | MouseDown event :: rest => last_mouse_down (Some (target event)) rest
  | _ :: rest => last_mouse_down before rest
  end.

(** The store of a freshly mounted dialog: [React.useRef(null)]. *)
Definition fresh_store (m : Manager) (w : World) : Store :=
  {| mouseDownTarget := None; manager := m; world := w |}.

(** Whether a run invoked the callback of prop [p]. *)
Definition invoked {A} (p : CallbackProp) (r : Run A) : bool :=
  bool_decide (Called p ∈ emitted r).

(** Whether a run called [event.stopPropagation()]. *)
Definition stopped {A} (r : Run A) : bool :=
  bool_decide (StopPropagation ∈ emitted r).

(** The invocation an optional call [f?.()] contributes to a run, and its
    effect on the world. *)
Definition calls_of (p : CallbackProp) (f : option Callback) : list Effect :=
  match f with Some _ => [Called p] | None => [] end.

Definition apply_opt (f : option Callback) (w : World) : World :=
  match f with Some g => g w | None => w end.

(** Whether [onOverlayClick] goes on to the callbacks: the click ends
    where the mouse went down, and the dialog is the topmost one. *)
Definition dismisses (dialog : RefObject) (event : MouseEvent) (s : Store)
    : bool :=
  bool_decide (mouseDownTarget s = Some (target event))
  && isTopDialog (manager s) dialog.

(** The props with the callback of prop [p] not provided. *)
Definition without (p : CallbackProp) (props : DialogHookProps)
    : DialogHookProps :=
  {| isOpen := isOpen props;
     id := id props;
     onClose := if decide (p = OnClose) then None else onClose props;
     shouldBlockScroll := shouldBlockScroll props;
     shouldCloseOnOverlayClick := shouldCloseOnOverlayClick props;
     shouldCloseOnEsc := shouldCloseOnEsc props;
     onOverlayClickProp :=
       if decide (p = OnOverlayClickProp) then None
       else onOverlayClickProp props;
     onEsc := if decide (p = OnEsc) then None else onEsc props;
     useInert := useInert props |}.

End Dialog.

Arguments outcome {World Manager A} r.
Arguments store {World Manager A} r.
Arguments emitted {World Manager A} r.

Abbreviation Dict := (gmap string Value).

(** ** [useAriaHidden] *)

Section AriaHidden.

(** [Dom] is the state of the document the [aria-hidden] package works
    on; [hideOthers] of that package changes it and returns its [Undo]. *)
Context {Dom : Type}.
Definition Undo : Type := Dom → Dom.
Variable hideOthers : Node → Dom → Dom * Undo.

(** One run of the effect: the document after it, the nodes [hideOthers]
    was applied to, and the cleanup the effect returned, if any. *)
Record EffectRun := {
  dom_after : Dom;
  hidden : list Node;
  cleanup : option (Dom → Dom);
}.

(** The body of the effect, given what [ref.current] holds when it
    runs. *)
Definition useAriaHidden_effect (current : option Node) (shouldHide : bool)
    (d : Dom) : EffectRun :=
  match current with
  | None => {| dom_after := d; hidden := []; cleanup := None |}
  | Some node =>
      let applied :=
        if shouldHide then
          let r := hideOthers node d in (r.1, Some r.2, [node])
        else (d, None, []) in
      let undo : option Undo := applied.1.2 in
      {| dom_after := applied.1.1;
         hidden := applied.2;
         cleanup :=
           Some (λ d',
                   if shouldHide then
                     match undo with Some u => u d' | None => d' end
                   else d') |}
  end.

(** [useAriaHidden(ref, shouldHide)], with the contents of the refs. *)
Definition useAriaHidden (current_of : RefObject → option Node)
    (call : RefObject * bool) (d : Dom) : EffectRun :=
  useAriaHidden_effect (current_of call.1) call.2 d.

(** Running the cleanup of an effect, when it returned one. *)
Definition run_cleanup (r : EffectRun) : Dom :=
  match cleanup r with
  | Some c => c (dom_after r)
  | None => dom_after r
  end.

End AriaHidden.

(** ** Concrete data for the examples

    The world is a counter the callbacks add to, and the manager is the
    stack of the open dialogs, the topmost one last. *)

Definition ex_isTopDialog (m : list RefObject) (dialog : RefObject) : bool :=
  bool_decide (last m = Some dialog).

Definition ex_props : @DialogHookProps nat :=
  {| isOpen := true; id := None;
     onClose := Some (λ w, w + 1);
     shouldBlockScroll := None;
     shouldCloseOnOverlayClick := None;
     shouldCloseOnEsc := Some false;
     onOverlayClickProp := Some (λ w, w + 10);
     onEsc := Some (λ w, w + 100);
     useInert := None |}.

(** The overlay is node 1, a node of the content is node 2; the dialog's
    ref is 7 and it is the only open dialog. *)
Definition ex_click : MouseEvent := {| target := 1 |}.
Definition ex_store : @Store nat (list RefObject) :=
  {| mouseDownTarget := Some 1; manager := [7]; world := 0 |}.
(** The same store after a second dialog (ref 9) was opened on top. *)
Definition ex_store_covered : @Store nat (list RefObject) :=
  {| mouseDownTarget := Some 1; manager := [7; 9]; world := 0 |}.
Definition ex_escape : KeyboardEvent := {| key := "Escape"; key_target := 1 |}.
Definition ex_inst : DialogInstance := mount 7 8.

Definition ex_useIds (id : option string) (dialog header body : string)
    : string * string * string :=
  match id with
  | Some i => (i, (header ++ "-" ++ i)%string, (body ++ "-" ++ i)%string)
  | None => (dialog, header, body)
  end.

(** A composition of handlers for the examples: every handler that is
    provided is called with the event, in the order given. *)
Fixpoint ex_callAllHandlers (E : Type)
    (fns : list (option (E → @Js nat (list RefObject) unit))) (event : E)
    : @Js nat (list RefObject) unit :=
  match fns with
  | [] => js_ret tt
  | None :: rest => ex_callAllHandlers E rest event
  | Some fn :: rest =>
      js_bind (fn event) (λ _, ex_callAllHandlers E rest event)
  end.

Definition ex_mergeRefs (a b : @Value nat (list RefObject))
    : @Value nat (list RefObject) := VOpaque 0.

(** A document of four nodes; its state is the list of the nodes that
    carry [aria-hidden].  [hideOthers] hides every node but the given one
    and its undo puts the earlier state back. *)
Definition ex_hideOthers (node : Node) (d : list Node)
    : list Node * (list Node → list Node) :=
  (filter (λ n, n ≠ node) [1; 2; 3; 4], λ _, d).

(** The dialog's ref (7) holds node 2; the overlay's ref (8) is empty. *)
Definition ex_current_of (r : RefObject) : option Node :=
  if decide (r = 7) then Some 2 else None.

(** ** Counting calls, and the keys the prop getters write *)

(** How often a run invoked the callback of prop [p]. *)
Definition count_calls (p : CallbackProp) (es : list Effect) : nat :=
  length (filter (λ e, e = Called p) es).

(** The events whose handler may go on to a callback: every one but a
    mouse-down. *)
Definition reaches_callbacks (e : OverlayEvent) : bool :=
  match e with MouseDown _ => false | KeyDown _ | Click _ => true end.

(** The keys [getDialogContentProps] and [getDialogOverlayProps] write
    after the spread. *)
Definition content_keys : list string :=
  ["ref"; "id"; "role"; "tabIndex"; "aria-modal"; "aria-labelledby";
   "aria-describedby"; "onClick"].
Definition overlay_keys : list string :=
  ["ref"; "onClick"; "onKeyDown"; "onMouseDown"].

(** ** Several dialogs on one document

    The effects of several [useAriaHidden] calls, run one after the other
    on the document; the cleanups they return are collected with the most
    recent one first. *)

Section NestedEffects.

Context {Dom : Type}.
Variable hideOthers : Node → Dom → Dom * @Undo Dom.

Fixpoint run_effects (calls : list (option Node * bool)) (d : Dom)
    : Dom * list (Dom → Dom) :=
  match calls with
  | [] => (d, [])
  | c :: rest =>
      let r := useAriaHidden_effect hideOthers c.1 c.2 d in
      let rs := run_effects rest (dom_after r) in
      (rs.1,
       (rs.2 ++ match cleanup r with Some k => [k] | None => [] end)%list)
  end.

(** Running cleanups in the order of the list. *)
Definition run_cleanups (cs : list (Dom → Dom)) (d : Dom) : Dom :=
  foldl (λ d' c, c d') d cs.

End NestedEffects.

(** ** [React.useCallback]

    [React.useCallback(fn, deps)] returns the function of the previous
    render unless a dependency has changed; [same] is the comparison of
    two dependency arrays.  A closure that is kept still reads the props
    of the render that built it. *)

Definition useCallback {H D : Type} (same : D → D → bool)
    (prev : option (H * D)) (fn : H) (deps : D) : H * D :=
  match prev with
  | Some (h, d) => if same d deps then (h, d) else (fn, deps)
  | None => (fn, deps)
  end.

Section Memoised.

Context {World Manager : Type}.
Variable isTopDialog : Manager → RefObject → bool.

(** [[shouldCloseOnEsc, onClose, onEsc]] *)
Definition onKeyDown_deps (props : @DialogHookProps World)
    : bool * option Callback * option Callback :=
  (or_true (shouldCloseOnEsc props), onClose props, onEsc props).

(** [[onClose, shouldCloseOnOverlayClick, onOverlayClickProp]] *)
Definition onOverlayClick_deps (props : @DialogHookProps World)
    : option Callback * bool * option Callback :=
  (onClose props, or_true (shouldCloseOnOverlayClick props),
   onOverlayClickProp props).

(** The memoised handlers after a series of renders, each with its
    props. *)
Definition memo_onKeyDown
    (same : bool * option Callback * option Callback
            → bool * option Callback * option (@Callback World) → bool)
    (renders : list (@DialogHookProps World))
    : option ((KeyboardEvent → @Js World Manager unit)
              * (bool * option Callback * option (@Callback World))) :=
  foldl (λ memo props,
           Some (useCallback same memo (onKeyDown props)
                   (onKeyDown_deps props)))
        None renders.

Definition memo_onOverlayClick
    (same : option Callback * bool * option Callback
            → option Callback * bool * option (@Callback World) → bool)
    (dialog : RefObject) (renders : list (@DialogHookProps World))
    : option ((MouseEvent → @Js World Manager unit)
              * (option Callback * bool * option (@Callback World))) :=
  foldl (λ memo props,
           Some (useCallback same memo
                   (onOverlayClick isTopDialog props dialog)
                   (onOverlayClick_deps props)))
        None renders.

End Memoised.

(** A comparison of dependency arrays for the examples: the flags are
    equal and no callback is provided in either. *)
Definition ex_same_keydown
    (d1 d2 : bool * option (@Callback nat) * option (@Callback nat)) : bool :=
  bool_decide (d1.1.1 = d2.1.1)
  && bool_decide (d1.1.2 = None) && bool_decide (d2.1.2 = None)
  && bool_decide (d1.2 = None) && bool_decide (d2.2 = None).

Definition ex_same_click
    (d1 d2 : option (@Callback nat) * bool * option (@Callback nat)) : bool :=
  bool_decide (d1.1.2 = d2.1.2)
  && bool_decide (d1.1.1 = None) && bool_decide (d2.1.1 = None)
  && bool_decide (d1.2 = None) && bool_decide (d2.2 = None).

(** Props without callbacks, and props of a later render that differ from
    them in everything the handlers do not read. *)
Definition ex_props_quiet : @DialogHookProps nat :=
  {| isOpen := true; id := None;
     onClose := None;
     shouldBlockScroll := None;
     shouldCloseOnOverlayClick := None;
     shouldCloseOnEsc := None;
     onOverlayClickProp := None;
     onEsc := None;
     useInert := None |}.

Definition ex_props_rerendered : @DialogHookProps nat :=
  {| isOpen := false; id := Some "settings";
     onClose := None;
     shouldBlockScroll := Some false;
     shouldCloseOnOverlayClick := Some true;
     shouldCloseOnEsc := Some true;
     onOverlayClickProp := None;
     onEsc := None;
     useInert := Some false |}.

(** A history on the overlay: the mouse goes down on node 1, a key is
    pressed, and a click whose target is node 3 arrives. *)
Definition ex_history : list OverlayEvent :=
  [MouseDown {| target := 1 |};
   KeyDown {| key := "a"; key_target := 1 |};
   Click {| target := 3 |}].

(** Props of a caller for the content and for the overlay. *)
Definition ex_caller_props : gmap string (@Value nat (list RefObject)) :=
  {[ "className" := VStr "box"; "id" := VStr "mine" ]}.

(** Four [useAriaHidden] calls, the second on an empty ref and the third
    not asking to hide. *)
Definition ex_effect_calls : list (option Node * bool) :=
  [(Some 2, true); (None, true); (Some 3, false); (Some 1, true)].

(** * Properties *)

Section HandlerProperties.

Context {World Manager : Type}.
Variable isTopDialog : Manager → RefObject → bool.

Implicit Types (props : @DialogHookProps World) (s : @Store World Manager).
Implicit Types (dialog : RefObject) (event : MouseEvent).

(** ** Plain and optional calls *)

Lemma call_absent_throws (p : CallbackProp) s :
  outcome (call p None s) = Threw TypeError.
Proof. reflexivity. Qed.

Lemma call_opt_absent_returns (p : CallbackProp) s :
  call_opt p None s = js_ret tt s.
Proof. reflexivity. Qed.

Lemma call_opt_provided (p : CallbackProp) (f : Callback) s :
  outcome (call_opt p (Some f) s) = Returned tt
  ∧ emitted (call_opt p (Some f) s) = [Called p]
  ∧ world (store (call_opt p (Some f) s)) = f (world s).
Proof. repeat split. Qed.

(** ** Closed forms of the three handlers *)

Lemma onMouseDown_run event s :
  onMouseDown event s =
    {| outcome := Returned tt;
       store := {| mouseDownTarget := Some (target event);
                   manager := manager s; world := world s |};
       emitted := [] |}.
Proof. reflexivity. Qed.

Lemma onKeyDown_outcome props (kev : KeyboardEvent) s :
  outcome (onKeyDown props kev s) = Returned tt.
Proof.
  unfold onKeyDown.
  destruct (bool_decide (key kev = "Escape")); [|reflexivity].
  destruct (or_true (shouldCloseOnEsc props)), (onClose props), (onEsc props);
    reflexivity.
Qed.

Lemma onKeyDown_emitted props (kev : KeyboardEvent) s :
  emitted (onKeyDown props kev s) =
    if bool_decide (key kev = "Escape") then
      StopPropagation ::
        (if or_true (shouldCloseOnEsc props)
         then calls_of OnClose (onClose props) else [])
        ++ calls_of OnEsc (onEsc props)
    else [].
Proof.
  unfold onKeyDown.
  destruct (bool_decide (key kev = "Escape")); [|reflexivity].
  destruct (or_true (shouldCloseOnEsc props)), (onClose props), (onEsc props);
    reflexivity.
Qed.

Lemma onKeyDown_world props (kev : KeyboardEvent) s :
  world (store (onKeyDown props kev s)) =
    if bool_decide (key kev = "Escape") then
      apply_opt (onEsc props)
        (apply_opt
           (if or_true (shouldCloseOnEsc props) then onClose props else None)
           (world s))
    else world s.
Proof.
  unfold onKeyDown.
  destruct (bool_decide (key kev = "Escape")); [|reflexivity].
  destruct (or_true (shouldCloseOnEsc props)), (onClose props), (onEsc props);
    reflexivity.
Qed.

Lemma onKeyDown_keeps_refs props (kev : KeyboardEvent) s :
  mouseDownTarget (store (onKeyDown props kev s)) = mouseDownTarget s
  ∧ manager (store (onKeyDown props kev s)) = manager s.
Proof.
  unfold onKeyDown.
  destruct (bool_decide (key kev = "Escape")); [|split; reflexivity].
  destruct (or_true (shouldCloseOnEsc props)), (onClose props), (onEsc props);
    split; reflexivity.
Qed.

(** Evaluates a membership test in a list of effects that is known. *)
Ltac eval_membership :=
  repeat match goal with
  | |- context [bool_decide (?e ∈ ?l)] =>
      let b := eval vm_compute in (bool_decide (e ∈ l)) in
      change (bool_decide (e ∈ l)) with b
  end.

Ltac overlay_click_cases props dialog event s :=
  unfold onOverlayClick, dismisses, js_bind; cbn;
  repeat case_bool_decide; try contradiction; cbn;
  try (destruct (isTopDialog (manager s) dialog); cbn;
       [ destruct (or_true (shouldCloseOnOverlayClick props)),
                  (onClose props), (onOverlayClickProp props) | ]);
  cbn.

Lemma onOverlayClick_outcome props dialog event s :
  outcome (onOverlayClick isTopDialog props dialog event s) = Returned tt.
Proof. overlay_click_cases props dialog event s; reflexivity. Qed.

Lemma onOverlayClick_emitted props dialog event s :
  emitted (onOverlayClick isTopDialog props dialog event s) =
    StopPropagation ::
      if dismisses isTopDialog dialog event s then
        (if or_true (shouldCloseOnOverlayClick props)
         then calls_of OnClose (onClose props) else [])
        ++ calls_of OnOverlayClickProp (onOverlayClickProp props)
      else [].
Proof. overlay_click_cases props dialog event s; reflexivity. Qed.

Lemma onOverlayClick_world props dialog event s :
  world (store (onOverlayClick isTopDialog props dialog event s)) =
    if dismisses isTopDialog dialog event s then
      apply_opt (onOverlayClickProp props)
        (apply_opt
           (if or_true (shouldCloseOnOverlayClick props)
            then onClose props else None)
           (world s))
    else world s.
Proof. overlay_click_cases props dialog event s; reflexivity. Qed.

Lemma onOverlayClick_keeps_refs props dialog event s :
  mouseDownTarget (store (onOverlayClick isTopDialog props dialog event s))
    = mouseDownTarget s
  ∧ manager (store (onOverlayClick isTopDialog props dialog event s))
    = manager s.
Proof. overlay_click_cases props dialog event s; split; reflexivity. Qed.

(** ** Histories of events *)

Lemma deliver_outcome props dialog (e : OverlayEvent) s :
  outcome (deliver isTopDialog props dialog e s) = Returned tt.
Proof.
  destruct e; cbn [deliver].
  - reflexivity.
  - apply onKeyDown_outcome.
  - apply onOverlayClick_outcome.
Qed.

Lemma deliver_mouseDownTarget props dialog (e : OverlayEvent) s :
  mouseDownTarget (store (deliver isTopDialog props dialog e s)) =
    last_mouse_down (mouseDownTarget s) [e].
Proof.
  destruct e; cbn [deliver last_mouse_down].
  - reflexivity.
  - apply onKeyDown_keeps_refs.
  - apply onOverlayClick_keeps_refs.
Qed.

Lemma deliver_all_outcome props dialog (es : list OverlayEvent) s :
  outcome (deliver_all isTopDialog props dialog es s) = Returned tt.
Proof.
  revert s; induction es as [|e es IH]; intros s; [reflexivity|].
  cbn [deliver_all]. unfold js_bind. rewrite deliver_outcome. cbn. apply IH.
Qed.

Lemma deliver_all_mouseDownTarget props dialog (es : list OverlayEvent) s :
  mouseDownTarget (store (deliver_all isTopDialog props dialog es s)) =
    last_mouse_down (mouseDownTarget s) es.
Proof.
  revert s; induction es as [|e es IH]; intros s; [reflexivity|].
  cbn [deliver_all]. unfold js_bind. rewrite deliver_outcome. cbn.
  rewrite IH, deliver_mouseDownTarget. by destruct e.
Qed.

(** ** Overlay clicks *)

(** C1: a click whose target is the stored mouse-down target invokes the
    [onOverlayClick] callback exactly when [manager.isTopDialog(dialogRef)]
    holds, and [onClose] exactly when moreover [shouldCloseOnOverlayClick]
    (default [true]) is true; a dialog that is not the topmost one is
    never closed by an overlay click, whatever the stored target.  An
    invocation is a call: the world after the click is the world before
    it with [onClose] applied, when it is invoked, and then the
    [onOverlayClick] callback, when it is. *)
Theorem overlay_click_closes_topmost props dialog event s :
  mouseDownTarget s = Some (target event) →
  let r := onOverlayClick isTopDialog props dialog event s in
  (∀ f, onOverlayClickProp props = Some f →
     (invoked OnOverlayClickProp r = true
      ↔ isTopDialog (manager s) dialog = true)
     ∧ world (store r)
       = if isTopDialog (manager s) dialog
         then f (apply_opt
                   (if or_true (shouldCloseOnOverlayClick props)
                    then onClose props else None)
                   (world s))
         else world s)
  ∧ (∀ f, onClose props = Some f →
       (invoked OnClose r = true
        ↔ isTopDialog (manager s) dialog = true
          ∧ or_true (shouldCloseOnOverlayClick props) = true)
       ∧ world (store r)
         = if isTopDialog (manager s) dialog
           then apply_opt (onOverlayClickProp props)
                  (if or_true (shouldCloseOnOverlayClick props)
                   then f (world s) else world s)
           else world s)
  ∧ (shouldCloseOnOverlayClick props = None → ∀ f, onClose props = Some f →
       (invoked OnClose r = true ↔ isTopDialog (manager s) dialog = true)
       ∧ world (store r)
         = if isTopDialog (manager s) dialog
           then apply_opt (onOverlayClickProp props) (f (world s))
           else world s)
  ∧ emitted r
    = StopPropagation ::
        (if isTopDialog (manager s) dialog then
           (if or_true (shouldCloseOnOverlayClick props)
            then calls_of OnClose (onClose props) else [])
           ++ calls_of OnOverlayClickProp (onOverlayClickProp props)
         else [])
  ∧ (∀ s', isTopDialog (manager s') dialog = false →
       invoked OnClose (onOverlayClick isTopDialog props dialog event s')
         = false
       ∧ world (store (onOverlayClick isTopDialog props dialog event s'))
         = world s').
Proof.
  intros Hdown r. subst r. unfold invoked.
  split; [|split; [|split; [|split]]].
  - intros f Hf.
    rewrite onOverlayClick_emitted, onOverlayClick_world. unfold dismisses.
    rewrite (bool_decide_eq_true_2 _ Hdown), Hf. cbn.
    destruct (isTopDialog (manager s) dialog),
      (or_true (shouldCloseOnOverlayClick props)), (onClose props);
      eval_membership; intuition discriminate.
  - intros f Hf.
    rewrite onOverlayClick_emitted, onOverlayClick_world. unfold dismisses.
    rewrite (bool_decide_eq_true_2 _ Hdown), Hf. cbn.
    destruct (isTopDialog (manager s) dialog),
      (or_true (shouldCloseOnOverlayClick props)),
      (onOverlayClickProp props); eval_membership; intuition discriminate.
  - intros Hdefault f Hf.
    rewrite onOverlayClick_emitted, onOverlayClick_world. unfold dismisses.
    rewrite (bool_decide_eq_true_2 _ Hdown), Hf, Hdefault. cbn.
    destruct (isTopDialog (manager s) dialog), (onOverlayClickProp props);
      eval_membership; intuition discriminate.
  - rewrite onOverlayClick_emitted. unfold dismisses.
    by rewrite (bool_decide_eq_true_2 _ Hdown).
  - intros s' Htop. split.
    + rewrite onOverlayClick_emitted. unfold dismisses.
      by rewrite Htop, andb_false_r.
    + rewrite onOverlayClick_world. unfold dismisses.
      by rewrite Htop, andb_false_r.
Qed.

(** C2: a click whose target differs from the target recorded by the most
    recent mouse-down on the overlay (or that no mouse-down preceded)
    invokes neither [onClose] nor the [onOverlayClick] callback: the
    handler only stops the propagation of the click. *)
Theorem click_off_mouse_down_target_is_ignored props dialog
    (es : list OverlayEvent) event s0 :
  let s := store (deliver_all isTopDialog props dialog es s0) in
  last_mouse_down (mouseDownTarget s0) es ≠ Some (target event) →
  let r := onOverlayClick isTopDialog props dialog event s in
  invoked OnClose r = false
  ∧ invoked OnOverlayClickProp r = false
  ∧ emitted r = [StopPropagation]
  ∧ store r = s.
Proof.
  intros s Hne r.
  assert (Hdown : mouseDownTarget s ≠ Some (target event)).
  { subst s. by rewrite deliver_all_mouseDownTarget. }
  assert (Hem : emitted r = [StopPropagation]).
  { subst r. rewrite onOverlayClick_emitted. unfold dismisses.
    by rewrite (bool_decide_eq_false_2 _ Hdown). }
  unfold invoked. rewrite Hem.
  split; [reflexivity|]. split; [reflexivity|]. split; [reflexivity|].
  subst r. unfold onOverlayClick, js_bind. cbn.
  by rewrite (bool_decide_eq_true_2 _ Hdown).
Qed.

(** C7 (as amended): two runs that receive the same click under the same
    props and the same DOM references (the dialog's ref and the stored
    mouse-down target), and in which [manager.isTopDialog(dialogRef)]
    answers the same, make the same decision, whatever else was retained
    from earlier events: the same calls in the same order, and the same
    change of the world, each run from its own world. *)
Theorem overlay_click_decision_inputs props dialog event s1 s2 :
  mouseDownTarget s1 = mouseDownTarget s2 →
  isTopDialog (manager s1) dialog = isTopDialog (manager s2) dialog →
  emitted (onOverlayClick isTopDialog props dialog event s1)
    = emitted (onOverlayClick isTopDialog props dialog event s2)
  ∧ outcome (onOverlayClick isTopDialog props dialog event s1)
    = outcome (onOverlayClick isTopDialog props dialog event s2)
  ∧ (let change w :=
       if dismisses isTopDialog dialog event s1 then
         apply_opt (onOverlayClickProp props)
           (apply_opt
              (if or_true (shouldCloseOnOverlayClick props)
               then onClose props else None)
              w)
       else w in
     world (store (onOverlayClick isTopDialog props dialog event s1))
       = change (world s1)
     ∧ world (store (onOverlayClick isTopDialog props dialog event s2))
       = change (world s2)).
Proof.
  intros Hdown Htop.
  assert (Hsame : dismisses isTopDialog dialog event s2
                  = dismisses isTopDialog dialog event s1).
  { unfold dismisses. by rewrite Hdown, Htop. }
  split; [|split].
  - rewrite !onOverlayClick_emitted. by rewrite Hsame.
  - by rewrite !onOverlayClick_outcome.
  - cbn zeta. rewrite !onOverlayClick_world. by rewrite Hsame.
Qed.

(** ** Key presses *)

(** C3: a keydown invokes [onClose] exactly when the key is ["Escape"] and
    [shouldCloseOnEsc] (default [true]) is true; for any other key the
    handler invokes no callback, does not stop the propagation and leaves
    the store as it was.  An invocation is a call: on ["Escape"] with
    [shouldCloseOnEsc] true the world after the key-down is the world
    before it with [onClose] applied, and then [onEsc] when it is
    provided; otherwise [onClose] is not applied. *)
Theorem keydown_closes_on_escape props (kev : KeyboardEvent) s :
  let r := onKeyDown props kev s in
  (∀ f, onClose props = Some f →
     (invoked OnClose r = true
      ↔ key kev = "Escape" ∧ or_true (shouldCloseOnEsc props) = true)
     ∧ world (store r)
       = if bool_decide (key kev = "Escape") then
           apply_opt (onEsc props)
             (if or_true (shouldCloseOnEsc props)
              then f (world s) else world s)
         else world s)
  ∧ (shouldCloseOnEsc props = None → ∀ f, onClose props = Some f →
       (invoked OnClose r = true ↔ key kev = "Escape")
       ∧ (key kev = "Escape" →
          world (store r) = apply_opt (onEsc props) (f (world s))))
  ∧ (key kev ≠ "Escape" → emitted r = [] ∧ store r = s)
  ∧ emitted r
    = (if bool_decide (key kev = "Escape") then
         StopPropagation ::
           (if or_true (shouldCloseOnEsc props)
            then calls_of OnClose (onClose props) else [])
           ++ calls_of OnEsc (onEsc props)
       else []).
Proof.
  intros r. subst r. unfold invoked.
  split; [|split; [|split]].
  - intros f Hf. rewrite onKeyDown_emitted, onKeyDown_world, Hf.
    destruct (bool_decide_reflect (key kev = "Escape")) as [Hkey|Hkey].
    + destruct (or_true (shouldCloseOnEsc props)), (onEsc props);
        eval_membership; intuition discriminate.
    + eval_membership. intuition discriminate.
  - intros Hdefault f Hf.
    rewrite onKeyDown_emitted, onKeyDown_world, Hf, Hdefault.
    destruct (bool_decide_reflect (key kev = "Escape")) as [Hkey|Hkey].
    + destruct (onEsc props); eval_membership; intuition discriminate.
    + eval_membership. intuition discriminate.
  - intros Hkey. unfold onKeyDown.
    by rewrite (bool_decide_eq_false_2 _ Hkey).
  - apply onKeyDown_emitted.
Qed.

(** C10: on ["Escape"] the handler stops the propagation and invokes
    [onEsc] (when provided) whatever [shouldCloseOnEsc] says; with
    [shouldCloseOnEsc] false, [onEsc] still fires and [onClose] does
    not.  In every case [onEsc] is applied to the world last. *)
Theorem escape_always_reports props (kev : KeyboardEvent) s :
  key kev = "Escape" →
  let r := onKeyDown props kev s in
  stopped r = true
  ∧ emitted r =
      StopPropagation ::
        (if or_true (shouldCloseOnEsc props)
         then calls_of OnClose (onClose props) else [])
        ++ calls_of OnEsc (onEsc props)
  ∧ (∀ f, onEsc props = Some f → invoked OnEsc r = true)
  ∧ (shouldCloseOnEsc props = Some false →
       invoked OnClose r = false
       ∧ world (store r) = apply_opt (onEsc props) (world s))
  ∧ world (store r)
    = apply_opt (onEsc props)
        (apply_opt
           (if or_true (shouldCloseOnEsc props) then onClose props else None)
           (world s)).
Proof.
  intros Hkey r. subst r. unfold invoked, stopped.
  rewrite onKeyDown_emitted, onKeyDown_world.
  rewrite (bool_decide_eq_true_2 _ Hkey).
  split; [|split; [|split; [|split]]].
  - apply bool_decide_eq_true. apply list_elem_of_here.
  - reflexivity.
  - intros f Hf. rewrite Hf.
    by destruct (or_true (shouldCloseOnEsc props)), (onClose props).
  - intros Hno. rewrite Hno. cbn. split; [|reflexivity].
    by destruct (onEsc props).
  - reflexivity.
Qed.

(** ** Callbacks that are not provided *)

(** C8: every callback is called through an optional call, so the handlers
    return normally for all props, and leaving a callback out only removes
    its invocation from what the handler does: the other calls and the
    [stopPropagation] stay as they were, and with no callback provided the
    world is left untouched. *)
Theorem handlers_tolerate_absent_callbacks props dialog
    (kev : KeyboardEvent) event s (p : CallbackProp) :
  outcome (onMouseDown event s) = Returned tt
  ∧ outcome (onKeyDown props kev s) = Returned tt
  ∧ outcome (onOverlayClick isTopDialog props dialog event s) = Returned tt
  ∧ emitted (onKeyDown (without p props) kev s)
    = filter (λ e, e ≠ Called p) (emitted (onKeyDown props kev s))
  ∧ emitted (onOverlayClick isTopDialog (without p props) dialog event s)
    = filter (λ e, e ≠ Called p)
        (emitted (onOverlayClick isTopDialog props dialog event s))
  ∧ world (store (onKeyDown (without OnEsc (without OnClose props)) kev s))
    = world s
  ∧ world (store (onOverlayClick isTopDialog
                    (without OnOverlayClickProp (without OnClose props))
                    dialog event s))
    = world s.
Proof.
  split; [reflexivity|].
  split; [apply onKeyDown_outcome|].
  split; [apply onOverlayClick_outcome|].
  split; [|split; [|split]].
  - rewrite !onKeyDown_emitted.
    destruct (bool_decide (key kev = "Escape")); [|reflexivity].
    destruct p, props as [? ? [c|] ? ? [[]|] ? [e|] ?]; reflexivity.
  - rewrite !onOverlayClick_emitted.
    destruct (dismisses isTopDialog dialog event s); [|reflexivity].
    destruct p, props as [? ? [c|] ? [[]|] ? [o|] ? ?]; reflexivity.
  - rewrite onKeyDown_world.
    destruct props as [? ? c ? ? [[]|] ? e ?]; cbn;
      by destruct (bool_decide _).
  - rewrite onOverlayClick_world.
    destruct props as [? ? c ? [[]|] ? o ? ?]; cbn;
      by destruct (dismisses _ _ _ _).
Qed.

End HandlerProperties.

Section RenderProperties.

Context {World Manager : Type}.
Variable isTopDialog : Manager → RefObject → bool.
Variable callAllHandlers :
  ∀ E : Type, list (option (E → @Js World Manager unit))
              → E → @Js World Manager unit.
Variable useIds : option string → string → string → string →
                  string * string * string.
Variable mergeRefs : @Value World Manager → @Value World Manager
                     → @Value World Manager.

Implicit Types (props : @DialogHookProps World) (inst : DialogInstance).
Implicit Types (s : @Store World Manager) (event : MouseEvent).

(** Reads a key of a [Dict] built by a chain of inserts. *)
Ltac read_key :=
  unfold get, getDialogContentProps, getDialogOverlayProps; cbn zeta;
  repeat (rewrite lookup_insert_ne by discriminate);
  rewrite lookup_insert_eq; cbn.

(** ** The hooks called while rendering *)

(** C6: [useLockBodyScroll] is passed the dialog's ref and a flag that is
    true exactly when the dialog is open and [shouldBlockScroll] (default
    [true]) is true; with the dialog closed or [shouldBlockScroll] false
    the flag is false. *)
Theorem scroll_lock_requested_when_open inst props :
  let call :=
    call_useLockBodyScroll
      (useDialog isTopDialog callAllHandlers useIds mergeRefs inst props).1 in
  call.1 = dialogRef inst
  ∧ (call.2 = true
     ↔ isOpen props = true ∧ or_true (shouldBlockScroll props) = true)
  ∧ (shouldBlockScroll props = None → call.2 = isOpen props)
  ∧ (isOpen props = false ∨ shouldBlockScroll props = Some false
     → call.2 = false).
Proof.
  cbn. split; [reflexivity|]. split; [apply andb_true_iff|]. split.
  - intros ->. apply andb_true_r.
  - intros [-> | ->]; [reflexivity|apply andb_false_r].
Qed.

(** ** The attributes of the dialog content *)

(** C4 (as amended): whatever props are passed, the returned attributes
    have [id] the generated [dialogId], [tabIndex] -1, [aria-modal] true,
    [role] the caller's role when that is truthy (for a string: not
    empty) and ["dialog"] otherwise, [aria-labelledby] the [headerId]
    when the header is mounted and [undefined] otherwise, and
    [aria-describedby] the [bodyId] when the body is mounted and
    [undefined] otherwise. *)
Theorem content_props_attributes inst props (arg : option Dict) :
  let r := getDialogContentProps callAllHandlers useIds mergeRefs inst props arg in
  let role := get (default ∅ arg) "role" in
  get r "id" = VStr (dialogId useIds props)
  ∧ get r "tabIndex" = VNum (-1)
  ∧ get r "aria-modal" = VBool true
  ∧ get r "role" = (if truthy role then role else VStr "dialog")
  ∧ (∀ name, role = VStr name → name ≠ "" → get r "role" = VStr name)
  ∧ (role = VUndefined → get r "role" = VStr "dialog")
  ∧ get r "aria-labelledby"
    = (if headerMounted inst then VStr (headerId useIds props)
       else VUndefined)
  ∧ get r "aria-describedby"
    = (if bodyMounted inst then VStr (bodyId useIds props)
       else VUndefined).
Proof.
  intros r role. subst r.
  assert (Hrole :
    get (getDialogContentProps callAllHandlers useIds mergeRefs inst props arg) "role"
      = if truthy role then role else VStr "dialog").
  { read_key. reflexivity. }
  split; [read_key; reflexivity|].
  split; [read_key; reflexivity|].
  split; [read_key; reflexivity|].
  split; [exact Hrole|].
  split; [|split; [|split; read_key; reflexivity]].
  - intros name Hname Hne. rewrite Hrole, Hname. cbn.
    destruct (String.eqb_spec name ""); [contradiction|reflexivity].
  - intros Hundef. by rewrite Hrole, Hundef.
Qed.

End RenderProperties.

Section AriaHiddenProperties.

Context {World Manager Dom : Type}.
Variable isTopDialog : Manager → RefObject → bool.
Variable callAllHandlers :
  ∀ E : Type, list (option (E → @Js World Manager unit))
              → E → @Js World Manager unit.
Variable useIds : option string → string → string → string →
                  string * string * string.
Variable mergeRefs : @Value World Manager → @Value World Manager
                     → @Value World Manager.
Variable hideOthers : Node → Dom → Dom * @Undo Dom.

(** What the [aria-hidden] package promises of the [Undo] it returns:
    called on the document [hideOthers] left, it restores the document
    [hideOthers] found. *)
Hypothesis undo_restores :
  ∀ node d, (hideOthers node d).2 (hideOthers node d).1 = d.

Lemma effect_hidden (current : option Node) (shouldHide : bool) (d : Dom) :
  hidden (useAriaHidden_effect hideOthers current shouldHide d) =
    match current with
    | Some node => if shouldHide then [node] else []
    | None => []
    end.
Proof. by destruct current, shouldHide. Qed.

Lemma effect_hides (node : Node) (d : Dom) :
  let r := useAriaHidden_effect hideOthers (Some node) true d in
  dom_after r = (hideOthers node d).1
  ∧ ∃ c, cleanup r = Some c ∧ ∀ d', c d' = (hideOthers node d).2 d'.
Proof. cbn. split; [reflexivity|]. eexists. split; reflexivity. Qed.

Lemma effect_skips (current : option Node) (shouldHide : bool) (d : Dom) :
  let r := useAriaHidden_effect hideOthers current shouldHide d in
  hidden r = [] →
  dom_after r = d ∧ ∀ c d', cleanup r = Some c → c d' = d'.
Proof.
  destruct current as [node|], shouldHide; cbn; try discriminate; intros _.
  - split; [reflexivity|]. by intros c d' [= <-].
  - split; [reflexivity|]. intros c d' [=].
  - split; [reflexivity|]. intros c d' [=].
Qed.

Lemma effect_round_trip (current : option Node) (shouldHide : bool) (d : Dom) :
  run_cleanup (useAriaHidden_effect hideOthers current shouldHide d) = d.
Proof.
  destruct current as [node|], shouldHide; try reflexivity.
  apply undo_restores.
Qed.

(** C5: the effect [useDialog] installs applies [hideOthers] to the
    dialog's node exactly when the dialog is open, [useInert] (default
    [true]) is true and the dialog's ref is not null; whenever it does,
    the cleanup it returns calls the [Undo] that application returned, so
    that effect followed by cleanup leaves the document as it was. *)
Theorem background_inert_round_trip (inst : DialogInstance)
    (props : @DialogHookProps World) (current_of : RefObject → option Node)
    (d : Dom) :
  let call :=
    call_useAriaHidden
      (useDialog isTopDialog callAllHandlers useIds mergeRefs inst props).1 in
  let r := useAriaHidden hideOthers current_of call d in
  call = (dialogRef inst, isOpen props && or_true (useInert props))
  ∧ (hidden r ≠ []
     ↔ isOpen props = true ∧ or_true (useInert props) = true
       ∧ is_Some (current_of (dialogRef inst)))
  ∧ (∀ node,
       isOpen props = true → or_true (useInert props) = true →
       current_of (dialogRef inst) = Some node →
       hidden r = [node]
       ∧ dom_after r = (hideOthers node d).1
       ∧ ∃ c, cleanup r = Some c ∧ ∀ d', c d' = (hideOthers node d).2 d')
  ∧ (hidden r = [] →
       dom_after r = d ∧ ∀ c d', cleanup r = Some c → c d' = d')
  ∧ run_cleanup r = d.
Proof.
  intros call r. subst call r. unfold useAriaHidden.
  cbn [useDialog hook_calls call_useAriaHidden fst snd].
  split; [reflexivity|]. split; [|split; [|split]].
  - rewrite effect_hidden.
    destruct (current_of (dialogRef inst)) as [node|].
    + destruct (isOpen props), (or_true (useInert props)); cbn [andb].
      * split; [intros _; eauto|discriminate].
      * split; [done|]. by intros (_ & ? & _).
      * split; [done|]. by intros (? & _).
      * split; [done|]. by intros (? & _).
    + split; [done|]. by intros (_ & _ & [? ?]).
  - intros node -> -> ->. cbn [andb]. split; [reflexivity|].
    apply effect_hides.
  - apply effect_skips.
  - apply effect_round_trip.
Qed.

End AriaHiddenProperties.

(** * The theorems at concrete inputs *)

Lemma overlay_click_closes_topmost_witness :
  mouseDownTarget ex_store = Some (target ex_click)
  ∧ invoked OnClose
      (onOverlayClick ex_isTopDialog ex_props 7 ex_click ex_store) = true
  ∧ invoked OnClose
      (onOverlayClick ex_isTopDialog ex_props 9 ex_click ex_store) = false
  ∧ world (store (onOverlayClick ex_isTopDialog ex_props 7 ex_click
                    ex_store)) = 11.
Proof.
  pose proof (overlay_click_closes_topmost ex_isTopDialog ex_props 7
                ex_click ex_store eq_refl) as (_ & Hclose & _).
  pose proof (overlay_click_closes_topmost ex_isTopDialog ex_props 9
                ex_click ex_store eq_refl) as (_ & _ & _ & _ & Hnot).
  split; [reflexivity|]. split; [|split].
  - apply (proj1 (Hclose _ eq_refl)). split; reflexivity.
  - apply (Hnot ex_store eq_refl).
  - exact (proj2 (Hclose _ eq_refl)).
Defined.

Lemma click_off_mouse_down_target_is_ignored_witness :
  let drag := [MouseDown {| target := 2 |}] in
  last_mouse_down None drag ≠ Some (target ex_click)
  ∧ emitted
      (onOverlayClick ex_isTopDialog ex_props 7 ex_click
         (store (deliver_all ex_isTopDialog ex_props 7 drag
                   (fresh_store [7] 0))))
    = [StopPropagation].
Proof.
  assert (Hne : last_mouse_down None [MouseDown {| target := 2 |}]
                ≠ Some (target ex_click)) by discriminate.
  split; [exact Hne|].
  apply (click_off_mouse_down_target_is_ignored ex_isTopDialog ex_props 7
           [MouseDown {| target := 2 |}] ex_click (fresh_store [7] 0) Hne).
Defined.

Lemma overlay_click_decision_inputs_witness :
  let s2 : @Store nat (list RefObject) :=
    {| mouseDownTarget := Some 1; manager := [3; 7]; world := 42 |} in
  mouseDownTarget ex_store = mouseDownTarget s2
  ∧ ex_isTopDialog (manager ex_store) 7 = ex_isTopDialog (manager s2) 7
  ∧ emitted (onOverlayClick ex_isTopDialog ex_props 7 ex_click ex_store)
    = emitted (onOverlayClick ex_isTopDialog ex_props 7 ex_click s2).
Proof.
  split; [reflexivity|]. split; [reflexivity|].
  apply (proj1 (overlay_click_decision_inputs ex_isTopDialog ex_props 7
                  ex_click ex_store
                  {| mouseDownTarget := Some 1; manager := [3; 7];
                     world := 42 |}
                  eq_refl eq_refl)).
Defined.

Lemma escape_always_reports_witness :
  key ex_escape = "Escape"
  ∧ shouldCloseOnEsc ex_props = Some false
  ∧ invoked OnEsc (onKeyDown ex_props ex_escape ex_store) = true
  ∧ invoked OnClose (onKeyDown ex_props ex_escape ex_store) = false.
Proof.
  pose proof (escape_always_reports ex_props ex_escape ex_store eq_refl)
    as (_ & _ & Hesc & Hclose & _).
  split; [reflexivity|]. split; [reflexivity|]. split.
  - apply (Hesc _ eq_refl).
  - apply (Hclose eq_refl).
Defined.

Lemma background_inert_round_trip_witness :
  (∀ node d, (ex_hideOthers node d).2 (ex_hideOthers node d).1 = d)
  ∧ hidden (useAriaHidden ex_hideOthers ex_current_of
              (call_useAriaHidden
                 (useDialog ex_isTopDialog ex_callAllHandlers ex_useIds ex_mergeRefs ex_inst
                    ex_props).1) [4]) = [2]
  ∧ run_cleanup (useAriaHidden ex_hideOthers ex_current_of
                   (call_useAriaHidden
                      (useDialog ex_isTopDialog ex_callAllHandlers ex_useIds ex_mergeRefs
                         ex_inst ex_props).1) [4]) = [4].
Proof.
  assert (Hundo : ∀ node d,
            (ex_hideOthers node d).2 (ex_hideOthers node d).1 = d)
    by reflexivity.
  pose proof (background_inert_round_trip ex_isTopDialog ex_callAllHandlers ex_useIds
                ex_mergeRefs ex_hideOthers Hundo ex_inst ex_props
                ex_current_of [4]) as (_ & _ & Hpair & _ & Hback).
  split; [exact Hundo|]. split; [|exact Hback].
  apply (Hpair 2); reflexivity.
Defined.

(** * Where the code departs from a claim *)

(** C4 as stated fails when the role the caller gives is the empty
    string: a role is given, and the returned [role] is ["dialog"]. *)
Lemma content_props_role_counterexample :
  let arg : gmap string (@Value nat (list RefObject)) :=
    {[ "role" := VStr "" ]} in
  get arg "role" = VStr ""
  ∧ get (getDialogContentProps ex_callAllHandlers ex_useIds ex_mergeRefs ex_inst ex_props
           (Some arg)) "role" = VStr "dialog".
Proof. split; reflexivity. Qed.

(** C7 as stated fails: two runs deliver the same click (on node 1) to
    the same dialog (ref 7) under the same props, with the same stored
    mouse-down target (node 1) and the same world; in the second run
    another dialog was opened on top in between, so the manager no longer
    reports the dialog as topmost.  The first run closes the dialog, the
    second invokes nothing. *)
Lemma overlay_click_manager_counterexample :
  let click s := onOverlayClick ex_isTopDialog ex_props 7 ex_click s in
  mouseDownTarget ex_store = mouseDownTarget ex_store_covered
  ∧ world ex_store = world ex_store_covered
  ∧ invoked OnClose (click ex_store) = true
  ∧ invoked OnOverlayClickProp (click ex_store) = true
  ∧ world (store (click ex_store)) = 11
  ∧ invoked OnClose (click ex_store_covered) = false
  ∧ invoked OnOverlayClickProp (click ex_store_covered) = false
  ∧ world (store (click ex_store_covered)) = 0.
Proof. repeat split. Qed.

(** * Further properties of the handlers *)

Section HistoryProperties.

Context {World Manager : Type}.
Variable isTopDialog : Manager → RefObject → bool.

Implicit Types (props : @DialogHookProps World) (s : @Store World Manager).
Implicit Types (dialog : RefObject) (event : MouseEvent).

Lemma deliver_manager props dialog (e : OverlayEvent) s :
  manager (store (deliver isTopDialog props dialog e s)) = manager s.
Proof.
  destruct e; cbn [deliver].
  - reflexivity.
  - apply onKeyDown_keeps_refs.
  - apply onOverlayClick_keeps_refs.
Qed.

Lemma deliver_all_cons props dialog (e : OverlayEvent) es s :
  let r := deliver isTopDialog props dialog e s in
  store (deliver_all isTopDialog props dialog (e :: es) s)
    = store (deliver_all isTopDialog props dialog es (store r))
  ∧ emitted (deliver_all isTopDialog props dialog (e :: es) s)
    = (emitted r
       ++ emitted (deliver_all isTopDialog props dialog es (store r)))%list.
Proof.
  cbn [deliver_all]. unfold js_bind. rewrite deliver_outcome. by cbn.
Qed.

Lemma deliver_count_calls props dialog (e : OverlayEvent) s p :
  (count_calls p (emitted (deliver isTopDialog props dialog e s))
   ≤ if reaches_callbacks e then 1 else 0)%nat.
Proof.
  unfold count_calls. destruct e as [event|kev|event]; cbn [deliver].
  - cbn. lia.
  - rewrite onKeyDown_emitted.
    destruct (bool_decide _); [|cbn; lia].
    destruct p, (or_true (shouldCloseOnEsc props)), (onClose props),
      (onEsc props); vm_compute; lia.
  - rewrite onOverlayClick_emitted.
    destruct (dismisses _ _ _ _); [|destruct p; vm_compute; lia].
    destruct p, (or_true (shouldCloseOnOverlayClick props)), (onClose props),
      (onOverlayClickProp props); vm_compute; lia.
Qed.

(** X1: whatever events reach the overlay, the handlers return normally,
    the stored mouse-down target is the target of the last mouse-down (or
    what the ref held before, when there was none), and the manager is
    left as it was: only [onMouseDown] writes the ref, and no handler
    writes the manager. *)
Theorem history_keeps_refs props dialog (es : list OverlayEvent) s :
  let r := deliver_all isTopDialog props dialog es s in
  outcome r = Returned tt
  ∧ mouseDownTarget (store r) = last_mouse_down (mouseDownTarget s) es
  ∧ manager (store r) = manager s.
Proof.
  cbn zeta. split; [apply deliver_all_outcome|].
  split; [apply deliver_all_mouseDownTarget|].
  revert s. induction es as [|e es IH]; intros s; [reflexivity|].
  rewrite (proj1 (deliver_all_cons props dialog e es s)), IH.
  apply deliver_manager.
Qed.

(** X2: when the last mouse-down of a history was on the click's target,
    the dialog is the topmost one, [shouldCloseOnOverlayClick] is not
    false and [onClose] is provided, the click invokes [onClose] first and
    the [onOverlayClick] callback after it, and leaves the stored target
    in place. *)
Theorem click_on_mouse_down_target_closes props dialog
    (es : list OverlayEvent) event s0 (f : Callback) :
  let s := store (deliver_all isTopDialog props dialog es s0) in
  last_mouse_down (mouseDownTarget s0) es = Some (target event) →
  isTopDialog (manager s) dialog = true →
  shouldCloseOnOverlayClick props ≠ Some false →
  onClose props = Some f →
  let r := onOverlayClick isTopDialog props dialog event s in
  invoked OnClose r = true
  ∧ emitted r
    = StopPropagation :: Called OnClose
        :: calls_of OnOverlayClickProp (onOverlayClickProp props)
  ∧ world (store r) = apply_opt (onOverlayClickProp props) (f (world s))
  ∧ mouseDownTarget (store r) = Some (target event).
Proof.
  intros s Hlast Htop Hclose Hf r.
  assert (Hdown : mouseDownTarget s = Some (target event)).
  { subst s. by rewrite deliver_all_mouseDownTarget. }
  assert (Hshould : or_true (shouldCloseOnOverlayClick props) = true).
  { by destruct (shouldCloseOnOverlayClick props) as [[]|]. }
  assert (Hem : emitted r
                = StopPropagation :: Called OnClose
                    :: calls_of OnOverlayClickProp (onOverlayClickProp props)).
  { subst r. rewrite onOverlayClick_emitted. unfold dismisses.
    by rewrite (bool_decide_eq_true_2 _ Hdown), Htop, Hshould, Hf. }
  split; [|split; [exact Hem|split]].
  - unfold invoked. rewrite Hem. apply bool_decide_eq_true.
    apply list_elem_of_further, list_elem_of_here.
  - subst r. rewrite onOverlayClick_world. unfold dismisses.
    by rewrite (bool_decide_eq_true_2 _ Hdown), Htop, Hshould, Hf.
  - subst r. by rewrite (proj1 (onOverlayClick_keeps_refs _ _ _ _ _)).
Qed.

(** X3: over a whole history each callback is invoked at most once per
    key-down or click delivered; mouse-downs invoke nothing. *)
Theorem calls_bounded_by_events props dialog (es : list OverlayEvent) s
    (p : CallbackProp) :
  (count_calls p (emitted (deliver_all isTopDialog props dialog es s))
   ≤ length (filter (λ e, reaches_callbacks e = true) es))%nat.
Proof.
  revert s. induction es as [|e es IH]; intros s; [cbn; lia|].
  rewrite (proj2 (deliver_all_cons props dialog e es s)).
  unfold count_calls in *. rewrite filter_app, length_app.
  pose proof (deliver_count_calls props dialog e s p) as He.
  unfold count_calls in He.
  specialize (IH (store (deliver isTopDialog props dialog e s))).
  rewrite filter_cons.
  destruct (reaches_callbacks e).
  - rewrite decide_True by done. cbn [length]. lia.
  - rewrite decide_False by done. lia.
Qed.

(** X11: [onKeyDown] consults neither the manager nor the stored
    mouse-down target: what it invokes is the same on every store, so
    ["Escape"] closes a dialog whether or not it is the topmost one
    ([onClose] is applied to the world, and [onEsc] after it), and it
    changes the world the same way from equal worlds. *)
Theorem keydown_ignores_refs props (kev : KeyboardEvent) s1 s2 :
  emitted (onKeyDown props kev s1) = emitted (onKeyDown props kev s2)
  ∧ (world s1 = world s2 →
       world (store (onKeyDown props kev s1))
       = world (store (onKeyDown props kev s2)))
  ∧ (∀ f dialog, key kev = "Escape" →
       shouldCloseOnEsc props ≠ Some false →
       onClose props = Some f →
       isTopDialog (manager s1) dialog = false →
       invoked OnClose (onKeyDown props kev s1) = true
       ∧ world (store (onKeyDown props kev s1))
         = apply_opt (onEsc props) (f (world s1))).
Proof.
  split; [by rewrite !onKeyDown_emitted|].
  split; [intros Hw; by rewrite !onKeyDown_world, Hw|].
  intros f dialog Hkey Hshould Hf _. unfold invoked.
  rewrite onKeyDown_emitted, onKeyDown_world.
  rewrite (bool_decide_eq_true_2 _ Hkey), Hf.
  assert (Hs : or_true (shouldCloseOnEsc props) = true)
    by (by destruct (shouldCloseOnEsc props) as [[]|]).
  rewrite Hs. split; [|reflexivity]. apply bool_decide_eq_true.
  apply list_elem_of_further, list_elem_of_here.
Qed.

(** ** Memoised handlers *)

Lemma onKeyDown_deps_determine (props1 props2 : @DialogHookProps World)
    (kev : KeyboardEvent) s :
  onKeyDown_deps props1 = onKeyDown_deps props2 →
  onKeyDown props1 kev s = onKeyDown props2 kev s.
Proof.
  intros [= Hshould Hclose Hesc]. unfold onKeyDown.
  by rewrite Hshould, Hclose, Hesc.
Qed.

Lemma onOverlayClick_deps_determine (props1 props2 : @DialogHookProps World)
    dialog event s :
  onOverlayClick_deps props1 = onOverlayClick_deps props2 →
  onOverlayClick isTopDialog props1 dialog event s
    = onOverlayClick isTopDialog props2 dialog event s.
Proof.
  intros [= Hclose Hshould Hover]. unfold onOverlayClick.
  by rewrite Hshould, Hclose, Hover.
Qed.

(** X4: the dependencies of [onKeyDown]'s [useCallback] are complete.
    After any series of renders, the memoised handler does what
    [onKeyDown] built from the props of the last render does, provided
    dependency arrays that compare as the same are equal. *)
Theorem memoised_onKeyDown_is_current
    (same : bool * option Callback * option Callback
            → bool * option Callback * option (@Callback World) → bool)
    (renders : list (@DialogHookProps World)) props :
  (∀ d1 d2, same d1 d2 = true → d1 = d2) →
  ∃ h d,
    memo_onKeyDown (Manager := Manager) same (renders ++ [props])
      = Some (h, d)
    ∧ d = onKeyDown_deps props
    ∧ ∀ kev s, h kev s = onKeyDown props kev s.
Proof.
  intros Hsame. unfold memo_onKeyDown. rewrite foldl_app. cbn [foldl].
  revert props. induction renders as [|props0 renders IH] using rev_ind;
    intros props.
  - cbn. eauto.
  - rewrite foldl_app. cbn [foldl].
    destruct (IH props0) as (h0 & d0 & -> & -> & Hh0). cbn [useCallback].
    destruct (same (onKeyDown_deps props0) (onKeyDown_deps props)) eqn:Hs.
    + apply Hsame in Hs. eexists _, _. split; [reflexivity|].
      split; [exact Hs|]. intros kev s. rewrite Hh0.
      by apply onKeyDown_deps_determine.
    + eauto.
Qed.

(** X5: the dependencies of [onOverlayClick]'s [useCallback] are
    complete.  After any series of renders, the memoised handler does
    what [onOverlayClick] built from the props of the last render does,
    provided dependency arrays that compare as the same are equal. *)
Theorem memoised_onOverlayClick_is_current
    (same : option Callback * bool * option Callback
            → option Callback * bool * option (@Callback World) → bool)
    dialog (renders : list (@DialogHookProps World)) props :
  (∀ d1 d2, same d1 d2 = true → d1 = d2) →
  ∃ h d,
    memo_onOverlayClick isTopDialog same dialog (renders ++ [props])
      = Some (h, d)
    ∧ d = onOverlayClick_deps props
    ∧ ∀ event s, h event s = onOverlayClick isTopDialog props dialog event s.
Proof.
  intros Hsame. unfold memo_onOverlayClick. rewrite foldl_app. cbn [foldl].
  revert props. induction renders as [|props0 renders IH] using rev_ind;
    intros props.
  - cbn. eauto.
  - rewrite foldl_app. cbn [foldl].
    destruct (IH props0) as (h0 & d0 & -> & -> & Hh0). cbn [useCallback].
    destruct (same (onOverlayClick_deps props0) (onOverlayClick_deps props))
      eqn:Hs.
    + apply Hsame in Hs. eexists _, _. split; [reflexivity|].
      split; [exact Hs|]. intros event s. rewrite Hh0.
      by apply onOverlayClick_deps_determine.
    + eauto.
Qed.

End HistoryProperties.

(** * Further properties of the prop getters and of the effects *)

Section GetterProperties.

Context {World Manager : Type}.
Variable isTopDialog : Manager → RefObject → bool.
Variable callAllHandlers :
  ∀ E : Type, list (option (E → @Js World Manager unit))
              → E → @Js World Manager unit.
Variable useIds : option string → string → string → string →
                  string * string * string.
Variable mergeRefs : @Value World Manager → @Value World Manager
                     → @Value World Manager.

Implicit Types (props : @DialogHookProps World) (inst : DialogInstance).

(** Splits [k ∉ [k1; ...; kn]] into the inequalities. *)
Ltac split_not_elem H :=
  repeat (apply not_elem_of_cons in H as [? H]).

(** X6: [getDialogContentProps] passes the caller's props through: every
    key but the eight it writes itself ([ref], [id], [role], [tabIndex],
    [aria-modal], [aria-labelledby], [aria-describedby], [onClick]) comes
    back with the caller's value, and is absent when the caller did not
    give it. *)
Theorem content_props_pass_through inst props
    (arg : gmap string (@Value World Manager)) (k : string) :
  k ∉ content_keys →
  let r := getDialogContentProps callAllHandlers useIds mergeRefs inst props (Some arg) in
  r !! k = arg !! k
  ∧ dom r = dom arg ∪ list_to_set content_keys.
Proof.
  intros Hk r. subst r. unfold content_keys in Hk. split_not_elem Hk.
  unfold getDialogContentProps. cbn zeta. cbn [default].
  split; [by rewrite !lookup_insert_ne|].
  rewrite !dom_insert_L. apply set_eq. intros x.
  rewrite !elem_of_union, !elem_of_singleton, elem_of_list_to_set.
  unfold content_keys. rewrite !elem_of_cons, elem_of_nil.
  unfold Datatypes.id. tauto.
Qed.

(** X7: [getDialogOverlayProps] passes the caller's props through: every
    key but [ref], [onClick], [onKeyDown] and [onMouseDown] comes back
    with the caller's value, and those four are always present, as
    handlers for the three events. *)
Theorem overlay_props_pass_through inst props
    (arg : gmap string (@Value World Manager)) (k : string) :
  k ∉ overlay_keys →
  let r := getDialogOverlayProps isTopDialog callAllHandlers mergeRefs inst props (Some arg) in
  r !! k = arg !! k
  ∧ dom r = dom arg ∪ list_to_set overlay_keys
  ∧ (∃ h, r !! "onClick" = Some (VMouseHandler h))
  ∧ (∃ h, r !! "onKeyDown" = Some (VKeyHandler h))
  ∧ (∃ h, r !! "onMouseDown" = Some (VMouseHandler h)).
Proof.
  intros Hk r. subst r. unfold overlay_keys in Hk. split_not_elem Hk.
  unfold getDialogOverlayProps. cbn zeta. cbn [default].
  split; [by rewrite !lookup_insert_ne|].
  split.
  { rewrite !dom_insert_L. apply set_eq. intros x.
    rewrite !elem_of_union, !elem_of_singleton, elem_of_list_to_set.
    unfold overlay_keys. rewrite !elem_of_cons, elem_of_nil.
    unfold Datatypes.id. tauto. }
  split; [|split].
  - eexists. rewrite !lookup_insert_ne by done. apply lookup_insert_eq.
  - eexists. rewrite !lookup_insert_ne by done. apply lookup_insert_eq.
  - eexists. apply lookup_insert_eq.
Qed.

(** X8: the ids [useDialog] returns are the ids the content points to.
    On the first render neither [aria-labelledby] nor [aria-describedby]
    is set; once the header (the body) has reported itself mounted,
    [aria-labelledby] ([aria-describedby]) is the returned [headerId]
    ([bodyId]); the two flags do not affect each other, the refs or the
    other attributes. *)
Theorem mounted_flags_wire_returned_ids inst props
    (arg : option (gmap string (@Value World Manager))) (h b : bool) :
  let inst' := ret_setBodyMounted
                 (useDialog isTopDialog callAllHandlers useIds mergeRefs inst props).2 b
                 (ret_setHeaderMounted
                    (useDialog isTopDialog callAllHandlers useIds mergeRefs inst props).2
                    h inst) in
  let ret := (useDialog isTopDialog callAllHandlers useIds mergeRefs inst' props).2 in
  let attrs := ret_getDialogContentProps ret arg in
  get attrs "aria-labelledby"
    = (if h then VStr (ret_headerId ret) else VUndefined)
  ∧ get attrs "aria-describedby"
    = (if b then VStr (ret_bodyId ret) else VUndefined)
  ∧ inst' = setHeaderMounted h (setBodyMounted b inst)
  ∧ (useDialog isTopDialog callAllHandlers useIds mergeRefs inst' props).1
    = (useDialog isTopDialog callAllHandlers useIds mergeRefs inst props).1
  ∧ (∀ k, k ≠ "aria-labelledby" → k ≠ "aria-describedby" → k ≠ "onClick" →
       get attrs k
       = get (getDialogContentProps callAllHandlers useIds mergeRefs inst props arg) k)
  ∧ (∀ dialog overlay,
       let first := getDialogContentProps callAllHandlers useIds mergeRefs
                      (mount dialog overlay) props arg in
       get first "aria-labelledby" = VUndefined
       ∧ get first "aria-describedby" = VUndefined).
Proof.
  cbn zeta. cbn [useDialog snd fst ret_setBodyMounted ret_setHeaderMounted
                 ret_getDialogContentProps ret_headerId ret_bodyId].
  split; [|split; [|split; [|split; [|split]]]].
  - unfold get, getDialogContentProps. cbn zeta.
    rewrite !lookup_insert_ne by done. rewrite lookup_insert_eq.
    by destruct h.
  - unfold get, getDialogContentProps. cbn zeta.
    rewrite !lookup_insert_ne by done. rewrite lookup_insert_eq.
    by destruct b.
  - reflexivity.
  - reflexivity.
  - intros k Hl Hd Hc. unfold get, getDialogContentProps. cbn zeta.
    rewrite (lookup_insert_ne _ "onClick") by done.
    rewrite (lookup_insert_ne _ "aria-describedby") by done.
    rewrite (lookup_insert_ne _ "aria-labelledby") by done.
    symmetry.
    rewrite (lookup_insert_ne _ "onClick") by done.
    rewrite (lookup_insert_ne _ "aria-describedby") by done.
    rewrite (lookup_insert_ne _ "aria-labelledby") by done.
    reflexivity.
  - intros dialog overlay. cbn zeta. unfold get, getDialogContentProps.
    cbn zeta. split.
    + rewrite !lookup_insert_ne by done. by rewrite lookup_insert_eq.
    + rewrite !lookup_insert_ne by done. by rewrite lookup_insert_eq.
Qed.

End GetterProperties.

Section EffectProperties.

Context {World Manager Dom : Type}.
Variable isTopDialog : Manager → RefObject → bool.
Variable callAllHandlers :
  ∀ E : Type, list (option (E → @Js World Manager unit))
              → E → @Js World Manager unit.
Variable useIds : option string → string → string → string →
                  string * string * string.
Variable mergeRefs : @Value World Manager → @Value World Manager
                     → @Value World Manager.
Variable hideOthers : Node → Dom → Dom * @Undo Dom.

(** X9: a closed dialog asks for nothing: with [isOpen] false the flags
    passed to [useLockBodyScroll], [useAriaHidden] and [useDialogManager]
    are all false whatever the other props say, and the [useAriaHidden]
    effect neither applies [hideOthers] nor changes the document, on its
    run or on its cleanup, whatever [hideOthers] and its undo do. *)
Theorem closed_dialog_requests_nothing (inst : DialogInstance)
    (props : @DialogHookProps World) (current_of : RefObject → option Node)
    (d : Dom) :
  isOpen props = false →
  let calls := (useDialog isTopDialog callAllHandlers useIds mergeRefs inst props).1 in
  let r := useAriaHidden hideOthers current_of (call_useAriaHidden calls) d in
  (call_useLockBodyScroll calls).2 = false
  ∧ (call_useAriaHidden calls).2 = false
  ∧ (call_useDialogManager calls).2 = false
  ∧ hidden r = []
  ∧ dom_after r = d
  ∧ run_cleanup r = d
  ∧ ∀ c d', cleanup r = Some c → c d' = d'.
Proof.
  intros Hclosed. cbn zeta.
  cbn [useDialog hook_calls fst snd call_useLockBodyScroll
       call_useAriaHidden call_useDialogManager].
  rewrite Hclosed. cbn [andb]. unfold useAriaHidden. cbn [fst snd].
  do 3 (split; [reflexivity|]).
  destruct (current_of (dialogRef inst)) as [node|]; cbn.
  - do 3 (split; [reflexivity|]). by intros c d' [= <-].
  - do 3 (split; [reflexivity|]). intros c d' [=].
Qed.

(** What the [aria-hidden] package promises of the [Undo] it returns. *)
Hypothesis undo_restores :
  ∀ node d, (hideOthers node d).2 (hideOthers node d).1 = d.

Lemma run_cleanups_app (cs1 cs2 : list (Dom → Dom)) (d : Dom) :
  run_cleanups (cs1 ++ cs2) d = run_cleanups cs2 (run_cleanups cs1 d).
Proof. apply foldl_app. Qed.

(** X10: dialogs stack.  When the effects of several [useAriaHidden]
    calls run one after the other and their cleanups run in the reverse
    order (the dialog opened last is closed first), the document ends as
    it started, whatever the refs held and whichever calls asked to
    hide. *)
Theorem nested_effects_unwind (calls : list (option Node * bool)) (d : Dom) :
  run_cleanups (run_effects hideOthers calls d).2
    (run_effects hideOthers calls d).1 = d.
Proof.
  revert d. induction calls as [|c calls IH]; intros d; [reflexivity|].
  cbn [run_effects fst snd]. rewrite run_cleanups_app, IH.
  pose proof (effect_round_trip hideOthers undo_restores c.1 c.2 d) as Hback.
  unfold run_cleanup in Hback.
  by destruct (cleanup (useAriaHidden_effect hideOthers c.1 c.2 d)).
Qed.

End EffectProperties.

(** * The further properties at concrete inputs *)

Lemma ex_same_keydown_sound d1 d2 : ex_same_keydown d1 d2 = true → d1 = d2.
Proof.
  destruct d1 as [[b1 c1] e1], d2 as [[b2 c2] e2]. unfold ex_same_keydown.
  rewrite !andb_true_iff, !bool_decide_eq_true. cbn.
  by intros ((((-> & ->) & ->) & ->) & ->).
Qed.

Lemma ex_same_click_sound d1 d2 : ex_same_click d1 d2 = true → d1 = d2.
Proof.
  destruct d1 as [[c1 b1] o1], d2 as [[c2 b2] o2]. unfold ex_same_click.
  rewrite !andb_true_iff, !bool_decide_eq_true. cbn.
  by intros ((((-> & ->) & ->) & ->) & ->).
Qed.

Lemma click_on_mouse_down_target_closes_witness :
  last_mouse_down None ex_history = Some (target ex_click)
  ∧ ex_isTopDialog
      (manager (store (deliver_all ex_isTopDialog ex_props 7 ex_history
                         (fresh_store [7] 0)))) 7 = true
  ∧ shouldCloseOnOverlayClick ex_props ≠ Some false
  ∧ world (store (onOverlayClick ex_isTopDialog ex_props 7 ex_click
                    (store (deliver_all ex_isTopDialog ex_props 7 ex_history
                              (fresh_store [7] 0))))) = 11.
Proof.
  assert (Hshould : shouldCloseOnOverlayClick ex_props ≠ Some false)
    by discriminate.
  split; [reflexivity|]. split; [reflexivity|]. split; [exact Hshould|].
  exact (proj1 (proj2 (proj2
    (click_on_mouse_down_target_closes ex_isTopDialog ex_props 7 ex_history
       ex_click (fresh_store [7] 0) (λ w, w + 1)
       eq_refl eq_refl Hshould eq_refl)))).
Defined.

Lemma memoised_onKeyDown_is_current_witness :
  (∀ d1 d2, ex_same_keydown d1 d2 = true → d1 = d2)
  ∧ ex_same_keydown (onKeyDown_deps ex_props_quiet)
      (onKeyDown_deps ex_props_rerendered) = true
  ∧ ∃ h d,
      memo_onKeyDown (Manager := list RefObject) ex_same_keydown
        ([ex_props; ex_props_quiet] ++ [ex_props_rerendered]) = Some (h, d)
      ∧ ∀ kev s, h kev s = onKeyDown ex_props_rerendered kev s.
Proof.
  split; [exact ex_same_keydown_sound|]. split; [reflexivity|].
  destruct (memoised_onKeyDown_is_current (Manager := list RefObject)
              ex_same_keydown [ex_props; ex_props_quiet] ex_props_rerendered
              ex_same_keydown_sound) as (h & d & Hmemo & _ & Hh).
  exists h, d. split; [exact Hmemo|exact Hh].
Defined.

Lemma memoised_onOverlayClick_is_current_witness :
  (∀ d1 d2, ex_same_click d1 d2 = true → d1 = d2)
  ∧ ex_same_click (onOverlayClick_deps ex_props_quiet)
      (onOverlayClick_deps ex_props_rerendered) = true
  ∧ ∃ h d,
      memo_onOverlayClick ex_isTopDialog ex_same_click 7
        ([ex_props; ex_props_quiet] ++ [ex_props_rerendered]) = Some (h, d)
      ∧ ∀ event s,
          h event s
          = onOverlayClick ex_isTopDialog ex_props_rerendered 7 event s.
Proof.
  split; [exact ex_same_click_sound|]. split; [reflexivity|].
  destruct (memoised_onOverlayClick_is_current ex_isTopDialog ex_same_click 7
              [ex_props; ex_props_quiet] ex_props_rerendered
              ex_same_click_sound) as (h & d & Hmemo & _ & Hh).
  exists h, d. split; [exact Hmemo|exact Hh].
Defined.

Lemma content_props_pass_through_witness :
  ("className" ∉ content_keys)
  ∧ getDialogContentProps ex_callAllHandlers ex_useIds ex_mergeRefs ex_inst ex_props
      (Some ex_caller_props) !! "className" = Some (VStr "box").
Proof.
  assert (Hk : "className" ∉ content_keys).
  { apply (bool_decide_eq_false_1 ("className" ∈ content_keys)).
    reflexivity. }
  split; [exact Hk|].
  rewrite (proj1 (content_props_pass_through ex_callAllHandlers ex_useIds ex_mergeRefs ex_inst
                    ex_props ex_caller_props "className" Hk)).
  reflexivity.
Defined.

Lemma overlay_props_pass_through_witness :
  ("id" ∉ overlay_keys)
  ∧ getDialogOverlayProps ex_isTopDialog ex_callAllHandlers ex_mergeRefs ex_inst ex_props
      (Some ex_caller_props) !! "id" = Some (VStr "mine").
Proof.
  assert (Hk : "id" ∉ overlay_keys).
  { apply (bool_decide_eq_false_1 ("id" ∈ overlay_keys)). reflexivity. }
  split; [exact Hk|].
  rewrite (proj1 (overlay_props_pass_through ex_isTopDialog ex_callAllHandlers ex_mergeRefs
                    ex_inst ex_props ex_caller_props "id" Hk)).
  reflexivity.
Defined.

Lemma closed_dialog_requests_nothing_witness :
  isOpen ex_props_rerendered = false
  ∧ hidden (useAriaHidden ex_hideOthers ex_current_of
              (call_useAriaHidden
                 (useDialog ex_isTopDialog ex_callAllHandlers ex_useIds ex_mergeRefs ex_inst
                    ex_props_rerendered).1) [4]) = []
  ∧ (call_useDialogManager
       (useDialog ex_isTopDialog ex_callAllHandlers ex_useIds ex_mergeRefs ex_inst
          ex_props_rerendered).1).2 = false.
Proof.
  pose proof (closed_dialog_requests_nothing ex_isTopDialog ex_callAllHandlers ex_useIds
                ex_mergeRefs ex_hideOthers ex_inst ex_props_rerendered
                ex_current_of [4] eq_refl)
    as (_ & _ & Hmanager & Hhidden & _).
  split; [reflexivity|]. split; [exact Hhidden|exact Hmanager].
Defined.

Lemma nested_effects_unwind_witness :
  (∀ node d, (ex_hideOthers node d).2 (ex_hideOthers node d).1 = d)
  ∧ (run_effects ex_hideOthers ex_effect_calls [4]).1 = [2; 3; 4]
  ∧ run_cleanups (run_effects ex_hideOthers ex_effect_calls [4]).2
      (run_effects ex_hideOthers ex_effect_calls [4]).1 = [4].
Proof.
  assert (Hundo : ∀ node d,
            (ex_hideOthers node d).2 (ex_hideOthers node d).1 = d)
    by reflexivity.
  split; [exact Hundo|]. split; [reflexivity|].
  exact (nested_effects_unwind ex_hideOthers Hundo ex_effect_calls [4]).
Defined.
